(** * Weighted-sum scoring and dense ranking of logistics tools

    A shallow embedding of [mcda_analysis.py]: the scorer
    [calculate_weighted_score] and the ranker [evaluate_tools].

    Modelling decisions.
    - Numbers.  The scorer is embedded twice.  In module [Binary64] an
      [int] is an unbounded integer and a [float] an IEEE binary64 value,
      with the interpreter's conversions, its [OverflowError] and the
      digit-exact [round]: what depends on the binary representation (the
      value [round(x, 2)] returns, the ratings that can be multiplied) is
      stated there.  Outside that module numbers are exact rationals in
      canonical form ([Qc]) and [round(x, 2)] is the closest multiple of
      10^-2, ties going to the even multiple; this idealisation carries
      the ranker and the order properties of the scores, and leaves out
      representation error, overflow, nan and inf.
    - Dictionaries.  [tool_scores] is a finite map from column label to
      cell value; the weight table is kept as the list of its items in
      insertion order because the source iterates over [.items()].
    - Exceptions.  A computation either returns or raises; an exception is
      identified by the name of its class.
    - Objects.  Data frames live in a heap and are passed by reference, so
      that [dataframe.copy()] and the in-place column assignments
      [df[col] = ...] are distinguishable from mutation of the argument.
    - Library sort.  [sort_values] is called with pandas' default
      [kind='quicksort'].  Its documented contract is an ordering by key;
      the position of equal keys is not part of it.  The routine is a
      parameter of the ranker, constrained by that contract. *)

From Stdlib Require Import QArith Qabs Qcanon Qround Lqa Sorted Permutation.
From Stdlib Require Import PrimFloat FloatOps SpecFloat.
From stdpp Require Import base numbers strings gmap sorting list.

Open Scope Qc_scope.
Set Warnings "-inexact-float".

(* ================================================================= *)
(** ** Python values, exceptions and results *)

Inductive value : Type :=
  | VNum (x : Qc)        (* int or float *)
  | VStr (s : string)    (* str *)
  | VNone.               (* None *)

Global Instance value_eq_dec : EqDecision value.
Proof. solve_decision. Defined.

Inductive exn : Type :=
  | Exception (class_name : string).

Definition TypeError : exn := Exception "TypeError".
Definition KeyError : exn := Exception "KeyError".

Inductive result (A : Type) : Type :=
  | Ok (a : A)
  | Raise (e : exn).
Arguments Ok {A} a.
Arguments Raise {A} e.

Definition result_bind {A B} (r : result A) (k : A -> result B) : result B :=
  match r with
  | Ok a => k a
  | Raise e => Raise e
  end.

Definition is_numeric (v : value) : Prop :=
  match v with
  | VNum _ => True
  | _ => False
  end.

Global Instance is_numeric_dec v : Decision (is_numeric v).
Proof. destruct v; simpl; apply _. Defined.

Definition of_Z (z : Z) : Qc := Q2Qc (inject_Z z).

(** [rating * weight] with a float weight: defined on numbers, a
    [TypeError] on [str] and [None].  (Exact product; for the product in
    binary64 and the [OverflowError] of a huge [int] see
    [Binary64.py_mul].) *)
Definition py_mul (v : value) (weight : Qc) : result Qc :=
  match v with
  | VNum x => Ok (x * weight)
  | VStr _ | VNone => Raise TypeError
  end.

(* ================================================================= *)
(** ** [round(x, ndigits)] *)

(** Nearest integer, ties to even. *)
Definition round_half_even (x : Q) : Z :=
  let n := Qfloor x in
  match Qcompare (x - inject_Z n) (1 # 2) with
  | Lt => n
  | Gt => (n + 1)%Z
  | Eq => if Z.even n then n else (n + 1)%Z
  end.

(** [round(x, ndigits)] on the exact value; [Binary64.round_float] is the
    rounding of a double. *)
Definition py_round (x : Qc) (ndigits : nat) : Qc :=
  let scale := (10 ^ Z.of_nat ndigits)%Z in
  Q2Qc (Qmake (round_half_even (x * inject_Z scale)%Q) (Z.to_pos scale)).

(* ================================================================= *)
(** ** The scorer *)

(** A number written with two decimals: [hundredths 20] is [0.20]. *)
Definition hundredths (n : Z) : Qc := Q2Qc (n # 100).

Abbreviation weight_table := (list (string * Qc)).

Definition CRITERIA_WEIGHTS : weight_table :=
  [ ("ease_of_use", hundredths 20);
    ("integration_readiness", hundredths 20);
    ("cost_efficiency", hundredths 15);
    ("scalability", hundredths 15);
    ("paperwork_automation", hundredths 15);
    ("real_time_visibility", hundredths 15) ].

(** The body of the [for criterion, weight in CRITERIA_WEIGHTS.items()]
    loop, with the running [total_score] as accumulator. *)
Fixpoint score_loop (items : weight_table) (tool_scores : gmap string value)
    (total_score : Qc) : result Qc :=
  match items with
  | [] => Ok total_score
  | (criterion, weight) :: rest =>
      match tool_scores !! criterion with
      | Some rating =>
          result_bind (py_mul rating weight) (fun p =>
          score_loop rest tool_scores (total_score + p))
      | None => score_loop rest tool_scores total_score
      end
  end.

(** [calculate_weighted_score(tool_scores)].  The module global
    [CRITERIA_WEIGHTS] that the function reads is its first argument here. *)
Definition calculate_weighted_score (weights : weight_table)
    (tool_scores : gmap string value) : result Qc :=
  result_bind (score_loop weights tool_scores 0) (fun total_score =>
  Ok (py_round total_score 2)).

(* ================================================================= *)
(** ** Data frames *)

(** A row is the list of its cells in column order, each with its column
    label; a frame is the list of its rows.  Column labels are unique
    within a row, as in any frame built from tabular data. *)
Abbreviation record := (list (string * value)).
Abbreviation DataFrame := (list record).

(** [row.to_dict()]: on a repeated label the later cell wins. *)
Definition to_dict (row : record) : gmap string value :=
  list_to_map (reverse row).

Fixpoint get_cell (col : string) (row : record) : option value :=
  match row with
  | [] => None
  | (c, v) :: row' => if decide (c = col) then Some v else get_cell col row'
  end.

(** Cell assignment: an existing column is overwritten where it stands, a
    new column is appended after the last one. *)
Fixpoint set_cell (col : string) (v : value) (row : record) : record :=
  match row with
  | [] => [(col, v)]
  | (c, x) :: row' =>
      if decide (c = col) then (c, v) :: row' else (c, x) :: set_cell col v row'
  end.

(** A fallible function over a list, left to right; the first exception
    ends the traversal. *)
Fixpoint map_result {A B} (f : A -> result B) (l : list A) : result (list B) :=
  match l with
  | [] => Ok []
  | a :: l' =>
      result_bind (f a) (fun b =>
      result_bind (map_result f l') (fun bs => Ok (b :: bs)))
  end.

Definition as_number (v : value) : result Qc :=
  match v with
  | VNum x => Ok x
  | VStr _ | VNone => Raise TypeError
  end.

Definition int_value (z : Z) : value := VNum (of_Z z).

(* ----------------------------------------------------------------- *)
(** *** Dense ranking, largest value first *)

(** Insertion into a list of distinct values kept in descending order. *)
Fixpoint insert_distinct_desc (x : Qc) (l : list Qc) : list Qc :=
  match l with
  | [] => [x]
  | y :: l' =>
      if decide (x = y) then l
      else if decide (y < x) then x :: l
      else y :: insert_distinct_desc x l'
  end.

Definition distinct_desc (vals : list Qc) : list Qc :=
  foldr insert_distinct_desc [] vals.

Fixpoint index_of (x : Qc) (l : list Qc) : nat :=
  match l with
  | [] => 0
  | y :: l' => if decide (x = y) then 0 else S (index_of x l')
  end.

(** [Series.rank(ascending=False, method='dense').astype(int)]: a value's
    rank is its position, counted from 1, among the distinct values of the
    series in descending order. *)
Definition rank_in (vals : list Qc) (x : Qc) : Z :=
  Z.of_nat (S (index_of x (distinct_desc vals))).

Definition rank_dense_desc (vals : list Qc) : list Z :=
  rank_in vals <$> vals.

(* ----------------------------------------------------------------- *)
(** *** Reordering by an indexer *)

(** [frame.take(indexer)]: the rows at the given positions, in that order. *)
Definition take_rows (indexer : list nat) (d : DataFrame) : DataFrame :=
  omap (fun i => d !! i) indexer.

(** What numpy documents for [argsort]: the result lists every position
    once and visits the keys in ascending order. *)
Definition argsort_ok (argsort : list Qc -> list nat) : Prop :=
  forall keys,
    Permutation (argsort keys) (seq 0 (length keys)) /\
    Sorted Qcle (omap (fun i => keys !! i) (argsort keys)).

(** Two admissible routines, both by insertion over the keys paired with
    their positions.  The first puts a key before the equal keys that
    follow it in the input, the second after them. *)
Fixpoint insert_key (before : Qc -> Qc -> bool) (x : Qc * nat)
    (l : list (Qc * nat)) : list (Qc * nat) :=
  match l with
  | [] => [x]
  | y :: l' =>
      if before x.1 y.1 then x :: l else y :: insert_key before x l'
  end.

Definition argsort_by (before : Qc -> Qc -> bool) (keys : list Qc) : list nat :=
  snd <$> foldr (insert_key before) [] (zip keys (seq 0 (length keys))).

Definition argsort_stable : list Qc -> list nat :=
  argsort_by (fun a b => bool_decide (a <= b)).

Definition argsort_ties_reversed : list Qc -> list nat :=
  argsort_by (fun a b => bool_decide (a < b)).

(* ================================================================= *)
(** ** The heap of frames and the monad of the ranker *)

Abbreviation loc := nat.
Abbreviation heap := (list DataFrame).

(** A computation reads and writes the heap and returns or raises; the
    writes made before an exception stay. *)
Definition M (A : Type) : Type := heap -> result A * heap.

Definition ret {A} (a : A) : M A := fun h => (Ok a, h).

Definition raise {A} (e : exn) : M A := fun h => (Raise e, h).

Definition bind {A B} (m : M A) (k : A -> M B) : M B :=
  fun h =>
    match m h with
    | (Ok a, h') => k a h'
    | (Raise e, h') => (Raise e, h')
    end.

Notation "'do' x <- m ; k" := (bind m (fun x => k))
  (at level 10, x name, m at level 100, k at level 200).

Definition lift {A} (r : result A) : M A :=
  fun h => (r, h).

(** A reference held by Python code is always live; a dangling location
    has no counterpart in the source and is reported as an error. *)
Definition load (l : loc) : M DataFrame :=
  fun h =>
    match h !! l with
    | Some d => (Ok d, h)
    | None => (Raise (Exception "ReferenceError"), h)
    end.

Definition store (l : loc) (d : DataFrame) : M unit :=
  fun h => (Ok tt, <[l := d]> h).

Definition alloc (d : DataFrame) : M loc :=
  fun h => (Ok (length h), h ++ [d]).

(** [dataframe.copy()] *)
Definition df_copy (l : loc) : M loc :=
  do d <- load l ; alloc d.

(** [df.apply(f, axis=1)]: [f] on every row, top to bottom; the first
    exception propagates. *)
Definition df_apply (l : loc) (f : record -> result Qc) : M (list Qc) :=
  do d <- load l ; lift (map_result f d).

(** The frame with [series] written into column [col], row by row. *)
Definition with_column (col : string) (series : list value) (d : DataFrame) : DataFrame :=
  zip_with (set_cell col) series d.

(** [df[col] = series] *)
Definition df_setitem (l : loc) (col : string) (series : list value) : M unit :=
  do d <- load l ; store l (with_column col series d).

(** [df[col]], read cell by cell; a missing cell is the [KeyError] of a
    missing column.  The columns of a frame are those of its rows, so a
    frame without rows carries none: the ranker reads a column only after
    assigning it. *)
Definition df_getitem (l : loc) (col : string) : M (list value) :=
  do d <- load l ;
  match mapM (get_cell col) d with
  | Some series => ret series
  | None => raise KeyError
  end.

(** [series.rank(ascending=False, method='dense').astype(int)] *)
Definition series_rank (series : list value) : M (list Z) :=
  do vals <- lift (map_result as_number series) ; ret (rank_dense_desc vals).

(** [df.sort_values(col)] for a library routine [argsort]: a new frame. *)
Definition df_sort_values (argsort : list Qc -> list nat) (l : loc)
    (col : string) : M loc :=
  do series <- df_getitem l col ;
  do keys <- lift (map_result as_number series) ;
  do d <- load l ;
  alloc (take_rows (argsort keys) d).

(* ================================================================= *)
(** ** The ranker *)

(** [evaluate_tools(dataframe)].  [weights] is the module global
    [CRITERIA_WEIGHTS], [argsort] the sorting routine of the library. *)
Definition evaluate_tools (weights : weight_table)
    (argsort : list Qc -> list nat) (dataframe : loc) : M loc :=
  do df <- df_copy dataframe ;
  do scores <- df_apply df (fun row => calculate_weighted_score weights (to_dict row)) ;
  do _ <- df_setitem df "business_score" (VNum <$> scores) ;
  do series <- df_getitem df "business_score" ;
  do ranks <- series_rank series ;
  do _ <- df_setitem df "rank" (int_value <$> ranks) ;
  df_sort_values argsort df "rank".

(* ================================================================= *)
(** ** Vocabulary of the properties *)

(** A rating under a recognised criterion is a number. *)
Definition rating_ok (tool_scores : gmap string value) (item : string * Qc) : Prop :=
  match tool_scores !! item.1 with
  | Some v => is_numeric v
  | None => True
  end.

Global Instance rating_ok_dec r item : Decision (rating_ok r item).
Proof. unfold rating_ok. destruct (r !! item.1); apply _. Defined.

Definition ratings_numeric (weights : weight_table)
    (tool_scores : gmap string value) : Prop :=
  Forall (rating_ok tool_scores) weights.

Global Instance ratings_numeric_dec weights r :
  Decision (ratings_numeric weights r).
Proof. unfold ratings_numeric. apply _. Defined.

(** The (rating, weight) pairs of the criteria present in both mappings,
    and the sum of their products. *)
Definition present_in_both (weights : weight_table)
    (tool_scores : gmap string value) : list (Qc * Qc) :=
  omap (fun item : string * Qc =>
          match tool_scores !! item.1 with
          | Some (VNum x) => Some (x, item.2)
          | _ => None
          end) weights.

Definition weighted_sum (weights : weight_table)
    (tool_scores : gmap string value) : Qc :=
  foldr (fun p acc => p.1 * p.2 + acc) 0 (present_in_both weights tool_scores).

(** [k] is [x] rounded to the nearest integer, a tie going to the even
    neighbour. *)
Definition rounds_half_even_to (x : Qc) (k : Z) : Prop :=
  of_Z k - Q2Qc (1 # 2) <= x /\ x <= of_Z k + Q2Qc (1 # 2) /\
  (x = of_Z k - Q2Qc (1 # 2) \/ x = of_Z k + Q2Qc (1 # 2) -> Z.even k = true).



(** The score the scorer gives a row whose recognised ratings are numbers,
    and the frames on which it gives every row one. *)
Definition row_score (weights : weight_table) (row : record) : Qc :=
  py_round (weighted_sum weights (to_dict row)) 2.

Definition scorable (weights : weight_table) (d : DataFrame) : Prop :=
  Forall (fun row => ratings_numeric weights (to_dict row)) d.

Global Instance scorable_dec weights d : Decision (scorable weights d).
Proof. unfold scorable. apply _. Defined.

(** What a run of [evaluate_tools] leaves in the heap, as pure functions
    of the input frame (lemma [evaluate_tools_returns]): a row with its two
    derived cells written, for the scores of the whole frame; the copy
    after both column assignments; the frame returned. *)
Definition add_fields (weights : weight_table) (scores : list Qc)
    (row : record) : record :=
  set_cell "rank" (int_value (rank_in scores (row_score weights row)))
    (set_cell "business_score" (VNum (row_score weights row)) row).

Definition scored (weights : weight_table) (d : DataFrame) : DataFrame :=
  add_fields weights (row_score weights <$> d) <$> d.

Definition ranked (weights : weight_table) (argsort : list Qc -> list nat)
    (d : DataFrame) : DataFrame :=
  take_rows (argsort (of_Z <$> rank_dense_desc (row_score weights <$> d)))
    (scored weights d).

Definition has_score_rank (row : record) (s : Qc) (k : Z) : Prop :=
  get_cell "business_score" row = Some (VNum s) /\
  get_cell "rank" row = Some (int_value k).


Definition rank_column (rows : DataFrame) : option (list Qc) :=
  mapM (fun row => match get_cell "rank" row with
                   | Some (VNum x) => Some x
                   | _ => None
                   end) rows.

(* ----------------------------------------------------------------- *)
(** *** Inputs used in examples *)

Definition tool (name : string) (ease_of_use : Z) : record :=
  [("tool_name", VStr name); ("ease_of_use", VNum (of_Z ease_of_use))].

Definition graded_tools : DataFrame :=
  [tool "A" 5; tool "B" 5; tool "C" 3; tool "D" 3; tool "E" 1].

Definition unit_weight : weight_table := [("ease_of_use", hundredths 100)].

Definition half_weights : weight_table :=
  [("a", hundredths 50); ("b", hundredths 50)].


Definition tool_names (rows : DataFrame) : list value :=
  omap (get_cell "tool_name") rows.

(* ================================================================= *)
(** ** The rows of the chart *)

(** [seq[:n]]: Python's slice up to [n]; a negative [n] counts from the
    end. *)
Definition py_slice_to {A} (n : Z) (l : list A) : list A :=
  if decide (0 <= n)%Z then take (Z.to_nat n) l
  else take (Z.to_nat (Z.of_nat (length l) + n)) l.

(** [df.head(n)]: a new frame. *)
Definition df_head (l : loc) (n : Z) : M loc :=
  do d <- load l ; alloc (py_slice_to n d).

(** [top_tools = df.head(top_n).sort_values('business_score')], the first
    statement of [generate_executive_chart] and the frame it plots. *)
Definition top_tools (argsort : list Qc -> list nat) (df : loc) (top_n : Z) : M loc :=
  do head <- df_head df top_n ; df_sort_values argsort head "business_score".

(* ----------------------------------------------------------------- *)
(** *** Further vocabulary *)


(** Under the criterion of [item], the two mappings both have no rating,
    or both have a number and the second has the larger one. *)
Definition rating_no_higher (r1 r2 : gmap string value) (item : string * Qc) : Prop :=
  match r1 !! item.1, r2 !! item.1 with
  | Some (VNum x), Some (VNum y) => x <= y
  | None, None => True
  | _, _ => False
  end.

Global Instance rating_no_higher_dec r1 r2 item :
  Decision (rating_no_higher r1 r2 item).
Proof.
  unfold rating_no_higher.
  destruct (r1 !! item.1) as [[]|], (r2 !! item.1) as [[]|]; apply _.
Defined.


(** Every criterion of the table is rated, with a number between the two
    bounds. *)
Definition rating_within (lo hi : Qc) (r : gmap string value) (item : string * Qc) : Prop :=
  match r !! item.1 with
  | Some (VNum x) => lo <= x /\ x <= hi
  | _ => False
  end.

Global Instance rating_within_dec lo hi r item :
  Decision (rating_within lo hi r item).
Proof. unfold rating_within. destruct (r !! item.1) as [[]|]; apply _. Defined.




(* ================================================================= *)
(** ** The scorer in binary64 arithmetic *)

(** The scorer once more, with the numbers as the interpreter holds them:
    an [int] is an unbounded integer, a [float] is an IEEE binary64 value
    (Rocq's primitive floats: [+] and [*] round to nearest, ties to even,
    as the hardware does).  The ratings of a record are taken to be [int],
    [float], [str] or [None] objects.  The definitions above idealise this
    arithmetic by exact rationals; what depends on the binary
    representation (the digit [round] chooses, the largest rating that
    can be multiplied) is stated on the definitions of this module. *)

Module Binary64.

Inductive value : Type :=
  | VInt (z : Z)         (* int *)
  | VFloat (x : float)   (* float *)
  | VStr (s : string)    (* str *)
  | VNone.               (* None *)

Definition OverflowError : exn := Exception "OverflowError".

(** [float(z)], the conversion [int * float] and [int + float] apply to
    their [int] operand: the nearest double, ties to even, and an
    [OverflowError] from 2^1024 - 2^970 on, where the nearest double
    would be infinite. *)
Definition int_to_float (z : Z) : result float :=
  if (Z.abs z <? 2 ^ 1024 - 2 ^ 970)%Z
  then Ok (SF2Prim (binary_normalize prec emax z 0 false))
  else Raise OverflowError.

(** [rating * weight] with a float weight. *)
Definition py_mul (v : value) (weight : float) : result float :=
  match v with
  | VInt z => result_bind (int_to_float z) (fun x => Ok (x * weight)%float)
  | VFloat x => Ok (x * weight)%float
  | VStr _ | VNone => Raise TypeError
  end.

(** [total_score + p] with a float [p]. *)
Definition py_add (total_score : value) (p : float) : result value :=
  match total_score with
  | VInt z => result_bind (int_to_float z) (fun t => Ok (VFloat (t + p)%float))
  | VFloat t => Ok (VFloat (t + p)%float)
  | VStr _ | VNone => Raise TypeError
  end.

(** The magnitude of a finite double as a rational, and its sign bit. *)
Definition magnitude (x : float) : option Qc :=
  match Prim2SF x with
  | S754_zero _ => Some 0
  | S754_finite _ m e =>
      Some (if (0 <=? e)%Z then of_Z (Z.pos m * 2 ^ e)
            else Q2Qc (Z.pos m # Z.to_pos (2 ^ (- e))))
  | _ => None
  end.

Definition sign_bit (x : float) : bool :=
  match Prim2SF x with
  | S754_zero s | S754_infinity s | S754_finite s _ _ => s
  | S754_nan => false
  end.

(** The double nearest to [k / 10^ndigits], with the given sign. *)
Definition decimal_to_float (negative : bool) (k : Z) (ndigits : nat) : float :=
  match k with
  | Z.pos n =>
      SF2Prim (SFdiv prec emax (S754_finite negative n 0)
                 (S754_finite false (Pos.of_nat (10 ^ ndigits)) 0))
  | _ => SF2Prim (S754_zero negative)
  end.

(** [round(x, ndigits)] on a float: nan, the infinities and the zeros are
    returned as they are; otherwise the exact binary value of [x] is
    rounded to the closest multiple of 10^-ndigits, a tie going to the
    even multiple, and the double nearest to that decimal is returned. *)
Definition round_float (x : float) (ndigits : nat) : float :=
  match Prim2SF x, magnitude x with
  | S754_finite negative _ _, Some q =>
      decimal_to_float negative
        (round_half_even (this q * inject_Z (10 ^ Z.of_nat ndigits))%Q) ndigits
  | _, _ => x
  end.

(** [round(total_score, ndigits)]: an [int] is its own rounding to a
    non-negative number of digits. *)
Definition py_round (v : value) (ndigits : nat) : result value :=
  match v with
  | VInt z => Ok (VInt z)
  | VFloat x => Ok (VFloat (round_float x ndigits))
  | VStr _ | VNone => Raise TypeError
  end.

Abbreviation weight_table := (list (string * float)).


Definition CRITERIA_WEIGHTS : weight_table :=
  [ ("ease_of_use", 0.20%float);
    ("integration_readiness", 0.20%float);
    ("cost_efficiency", 0.15%float);
    ("scalability", 0.15%float);
    ("paperwork_automation", 0.15%float);
    ("real_time_visibility", 0.15%float) ].

Fixpoint score_loop (items : weight_table) (tool_scores : gmap string value)
    (total_score : value) : result value :=
  match items with
  | [] => Ok total_score
  | (criterion, weight) :: rest =>
      match tool_scores !! criterion with
      | Some rating =>
          result_bind (py_mul rating weight) (fun p =>
          result_bind (py_add total_score p) (fun total_score =>
          score_loop rest tool_scores total_score))
      | None => score_loop rest tool_scores total_score
      end
  end.

(** [calculate_weighted_score(tool_scores)]; [total_score = 0] is the
    [int] zero. *)
Definition calculate_weighted_score (weights : weight_table)
    (tool_scores : gmap string value) : result value :=
  result_bind (score_loop weights tool_scores (VInt 0)) (fun total_score =>
  py_round total_score 2).

(** *** Vocabulary of the properties *)

(** The double an [int] or [float] object stands for in a product. *)
Definition float_of_int (z : Z) : float :=
  SF2Prim (binary_normalize prec emax z 0 false).

Definition as_float (v : value) : option float :=
  match v with
  | VInt z => Some (float_of_int z)
  | VFloat x => Some x
  | VStr _ | VNone => None
  end.

(** What is wrong with a rating, if anything: it is not a number, or it
    is an [int] of magnitude 2^1024 - 2^970 or more. *)
Definition rating_fault (v : value) : option exn :=
  match v with
  | VInt z =>
      if (Z.abs z <? 2 ^ 1024 - 2 ^ 970)%Z then None else Some OverflowError
  | VFloat _ => None
  | VStr _ | VNone => Some TypeError
  end.

(** The faults of the ratings under recognised criteria, in the order of
    the weight table. *)
Definition faults (weights : weight_table)
    (tool_scores : gmap string value) : list exn :=
  omap (fun item : string * float => tool_scores !! item.1 ≫= rating_fault)
    weights.

(** The products [rating * weight] of the criteria present in both
    mappings, in the order of the weight table, and their sum taken from
    the [int] zero onwards, left to right. *)
Definition products (weights : weight_table)
    (tool_scores : gmap string value) : list float :=
  omap (fun item : string * float =>
          x ← tool_scores !! item.1 ≫= as_float; Some (x * item.2)%float)
    weights.

Definition sum_from_zero (ps : list float) : value :=
  match ps with
  | [] => VInt 0
  | p :: ps => VFloat (foldl PrimFloat.add (0 + p)%float ps)
  end.

Definition weighted_sum (weights : weight_table)
    (tool_scores : gmap string value) : value :=
  sum_from_zero (products weights tool_scores).

(** [r] is the double for [x] rounded to two decimals: for a finite
    [x] other than a zero, the double nearest to [k / 100], with the sign
    of [x], where [k] is the magnitude of [100 x] rounded to the nearest
    integer, a tie going to the even one; [x] itself otherwise. *)
Definition rounds_to_hundredths (x r : float) : Prop :=
  match magnitude x with
  | Some q =>
      if decide (q = 0) then r = x
      else exists k, rounds_half_even_to (q * of_Z 100) k /\
                     r = decimal_to_float (sign_bit x) k 2
  | None => r = x
  end.

Definition rounded (total_score score : value) : Prop :=
  match total_score with
  | VFloat x => exists r, score = VFloat r /\ rounds_to_hundredths x r
  | _ => score = total_score
  end.



(** *** Inputs used in examples *)

Definition half_weights : weight_table :=
  [ ("a", 0.5%float); ("b", 0.5%float) ].

Definition unit_weight : weight_table := [ ("a", 1.0%float) ].

Definition four_and_two : gmap string value :=
  <["a" := VInt 4]> {[ "b" := VInt 2 ]}.

(** Five criteria rated 1 and the last one rated 2.5. *)
Definition mostly_ones : gmap string value :=
  list_to_map
    [ ("ease_of_use", VInt 1); ("integration_readiness", VInt 1);
      ("cost_efficiency", VInt 1); ("scalability", VInt 1);
      ("paperwork_automation", VInt 1); ("real_time_visibility", VFloat 2.5) ].

End Binary64.

(* ================================================================= *)
(** * Properties *)

(* ================================================================= *)
(** ** Rational arithmetic *)


Lemma Qc_eq_iff (x y : Qc) : x = y <-> (this x == this y)%Q.
Proof. split; [intros ->; reflexivity | apply Qc_is_canon]. Qed.

Lemma this_Q2Qc q : (this (Q2Qc q) == q)%Q.
Proof. apply Qred_correct. Qed.

Lemma this_of_Z k : (this (of_Z k) == inject_Z k)%Q.
Proof. unfold of_Z. apply this_Q2Qc. Qed.

Lemma this_plus (x y : Qc) : (this (x + y) == this x + this y)%Q.
Proof. apply Qred_correct. Qed.

Lemma this_minus (x y : Qc) : (this (x - y) == this x - this y)%Q.
Proof.
  unfold Qcminus, Qcopp. rewrite this_plus, this_Q2Qc. reflexivity.
Qed.

Lemma this_mult (x y : Qc) : (this (x * y) == this x * this y)%Q.
Proof. apply Qred_correct. Qed.

(** Goals and hypotheses on [Qc] restated on the underlying [Q]. *)
Ltac on_Q :=
  unfold rounds_half_even_to, Qcle, Qclt in *;
  rewrite ?Qc_eq_iff in *;
  rewrite ?this_plus, ?this_minus, ?this_mult, ?this_of_Z, ?this_Q2Qc in *.

Lemma of_Z_inj (a b : Z) : of_Z a = of_Z b -> a = b.
Proof.
  intros H. apply inject_Z_injective. rewrite <- !this_of_Z. by rewrite H.
Qed.



(* ================================================================= *)
(** ** Rounding *)

Lemma round_half_even_spec (x : Q) :
  (inject_Z (round_half_even x) - (1 # 2) <= x)%Q /\
  (x <= inject_Z (round_half_even x) + (1 # 2))%Q /\
  ((x == inject_Z (round_half_even x) - (1 # 2) \/
    x == inject_Z (round_half_even x) + (1 # 2))%Q ->
   Z.even (round_half_even x) = true).
Proof.
  unfold round_half_even.
  pose proof (Qfloor_le x) as Hlo. pose proof (Qlt_floor x) as Hhi.
  rewrite inject_Z_plus in Hhi. change (inject_Z 1) with 1%Q in Hhi.
  set (n := Qfloor x) in *.
  destruct (Qcompare (x - inject_Z n) (1 # 2)) eqn:Hc.
  - apply Qeq_alt in Hc. destruct (Z.even n) eqn:He.
    + repeat split; [lra | lra | done].
    + rewrite inject_Z_plus. change (inject_Z 1) with 1%Q.
      repeat split; [lra | lra |].
      intros _. rewrite Z.add_1_r, Z.even_succ, <- Z.negb_even, He. done.
  - apply Qlt_alt in Hc. repeat split; [lra | lra |]. intros [H | H]; lra.
  - apply Qgt_alt in Hc. rewrite inject_Z_plus. change (inject_Z 1) with 1%Q.
    repeat split; [lra | lra |]. intros [H | H]; lra.
Qed.

Lemma round_half_even_comp (x y : Q) :
  (x == y)%Q -> round_half_even x = round_half_even y.
Proof.
  intros H. unfold round_half_even.
  rewrite (Qfloor_comp _ _ H).
  assert (x - inject_Z (Qfloor y) == y - inject_Z (Qfloor y))%Q as ->
    by (rewrite H; reflexivity).
  reflexivity.
Qed.

Lemma round_half_even_rounds (x : Qc) :
  rounds_half_even_to x (round_half_even (this x)).
Proof.
  pose proof (round_half_even_spec (this x)) as (H1 & H2 & H3).
  on_Q. repeat split; [lra | lra |]. intros H. apply H3.
  on_Q. done.
Qed.




Lemma py_round_rounds (x : Qc) :
  rounds_half_even_to (x * of_Z 100) (round_half_even (this x * 100)).
Proof.
  rewrite <- (round_half_even_comp (this (x * of_Z 100))).
  - apply round_half_even_rounds.
  - rewrite this_mult, this_of_Z. reflexivity.
Qed.



(* ================================================================= *)
(** ** The scorer *)

Lemma weighted_sum_cons c w items r :
  weighted_sum ((c, w) :: items) r
  = match r !! c with
    | Some (VNum x) => x * w + weighted_sum items r
    | _ => weighted_sum items r
    end.
Proof.
  unfold weighted_sum, present_in_both. simpl.
  destruct (r !! c) as [[x| |]|]; reflexivity.
Qed.

Lemma score_loop_numeric weights r acc :
  ratings_numeric weights r ->
  score_loop weights r acc = Ok (acc + weighted_sum weights r).
Proof.
  intros H. revert acc. induction H as [|[c w] items Hc _ IH]; intros acc.
  - simpl. apply f_equal. unfold weighted_sum. simpl. ring.
  - rewrite weighted_sum_cons. simpl.
    unfold rating_ok in Hc. simpl in Hc.
    destruct (r !! c) as [[x| |]|]; simpl in *; try done.
    rewrite IH. apply f_equal. ring.
Qed.

Lemma score_loop_non_numeric weights r acc :
  ~ ratings_numeric weights r -> score_loop weights r acc = Raise TypeError.
Proof.
  unfold ratings_numeric. revert acc.
  induction weights as [|[c w] items IH]; intros acc Hn.
  - destruct Hn. constructor.
  - simpl. destruct (r !! c) as [v|] eqn:Hv.
    + destruct v as [x| |]; simpl; try reflexivity.
      apply IH. intros HF. apply Hn. constructor; [|done].
      unfold rating_ok. simpl. rewrite Hv. done.
    + apply IH. intros HF. apply Hn. constructor; [|done].
      unfold rating_ok. simpl. rewrite Hv. done.
Qed.

Lemma calculate_weighted_score_numeric weights tool_scores :
  ratings_numeric weights tool_scores ->
  calculate_weighted_score weights tool_scores
  = Ok (py_round (weighted_sum weights tool_scores) 2).
Proof.
  intros H. unfold calculate_weighted_score.
  rewrite score_loop_numeric by done. simpl. do 2 f_equal. ring.
Qed.

Lemma calculate_weighted_score_cases weights tool_scores :
  calculate_weighted_score weights tool_scores
  = if decide (ratings_numeric weights tool_scores)
    then Ok (py_round (weighted_sum weights tool_scores) 2)
    else Raise TypeError.
Proof.
  destruct (decide _) as [H|H].
  - by apply calculate_weighted_score_numeric.
  - unfold calculate_weighted_score. by rewrite score_loop_non_numeric.
Qed.















(* ================================================================= *)
(** ** The scorer in binary64 arithmetic *)

(** The bound of [int_to_float] is where the nearest double stops being
    finite: one below it the conversion gives the largest double. *)
Example int_to_float_bound :
  Binary64.int_to_float (2 ^ 1024 - 2 ^ 970 - 1) =
    Ok 1.7976931348623157e+308%float /\
  binary_normalize prec emax (2 ^ 1024 - 2 ^ 970) 0 false =
    S754_infinity false /\
  Binary64.int_to_float (2 ^ 1024 - 2 ^ 970) = Raise Binary64.OverflowError /\
  Binary64.int_to_float (- (2 ^ 1024 - 2 ^ 970)) =
    Raise Binary64.OverflowError /\
  Binary64.int_to_float (2 ^ 53 + 1) = Ok 9007199254740992%float /\
  Binary64.int_to_float 0 = Ok 0%float.
Proof. repeat split; vm_compute; reflexivity. Qed.

Lemma py_mul_fault v weight e :
  Binary64.rating_fault v = Some e -> Binary64.py_mul v weight = Raise e.
Proof.
  destruct v as [z|x|s|]; simpl; unfold Binary64.int_to_float;
    try destruct (Z.abs z <? _)%Z; simpl; congruence.
Qed.

Lemma py_mul_number v weight :
  Binary64.rating_fault v = None ->
  exists x, Binary64.as_float v = Some x /\
            Binary64.py_mul v weight = Ok (x * weight)%float.
Proof.
  destruct v as [z|x|s|]; simpl; unfold Binary64.int_to_float;
    try destruct (Z.abs z <? _)%Z; simpl; try congruence; eauto.
Qed.

Lemma faults_cons c w items (r : gmap string Binary64.value) :
  Binary64.faults ((c, w) :: items) r =
    match r !! c ≫= Binary64.rating_fault with
    | Some e => e :: Binary64.faults items r
    | None => Binary64.faults items r
    end.
Proof. reflexivity. Qed.

Lemma products_cons c w items (r : gmap string Binary64.value) :
  Binary64.products ((c, w) :: items) r =
    match r !! c ≫= Binary64.as_float with
    | Some x => (x * w)%float :: Binary64.products items r
    | None => Binary64.products items r
    end.
Proof.
  unfold Binary64.products. cbn [omap list_omap fst snd].
  destruct (r !! c ≫= Binary64.as_float); reflexivity.
Qed.

Lemma score_loop_float weights (r : gmap string Binary64.value) t :
  Binary64.faults weights r = [] ->
  Binary64.score_loop weights r (Binary64.VFloat t) =
    Ok (Binary64.VFloat (foldl PrimFloat.add t (Binary64.products weights r))).
Proof.
  revert t. induction weights as [|[c w] items IH]; intros t Hf; [reflexivity|].
  rewrite faults_cons in Hf. rewrite products_cons. cbn [Binary64.score_loop].
  destruct (r !! c) as [v|] eqn:Hc; cbn [mbind option_bind] in *.
  - destruct (Binary64.rating_fault v) eqn:Hv; [discriminate|].
    destruct (py_mul_number v w Hv) as (x & Hx & ->). rewrite Hx.
    cbn [result_bind Binary64.py_add foldl]. apply IH, Hf.
  - apply IH, Hf.
Qed.

Lemma score_loop_zero weights (r : gmap string Binary64.value) :
  Binary64.faults weights r = [] ->
  Binary64.score_loop weights r (Binary64.VInt 0) =
    Ok (Binary64.weighted_sum weights r).
Proof.
  unfold Binary64.weighted_sum.
  induction weights as [|[c w] items IH]; intros Hf; [reflexivity|].
  rewrite faults_cons in Hf. rewrite products_cons. cbn [Binary64.score_loop].
  destruct (r !! c) as [v|] eqn:Hc; cbn [mbind option_bind] in *.
  - destruct (Binary64.rating_fault v) eqn:Hv; [discriminate|].
    destruct (py_mul_number v w Hv) as (x & Hx & ->). rewrite Hx.
    cbn [result_bind Binary64.sum_from_zero].
    change (Binary64.py_add (Binary64.VInt 0) (x * w)%float)
      with (Ok (A := Binary64.value) (Binary64.VFloat (0 + x * w)%float)).
    cbn [result_bind]. apply score_loop_float, Hf.
  - apply IH, Hf.
Qed.

Lemma score_loop_fault weights (r : gmap string Binary64.value) acc e :
  head (Binary64.faults weights r) = Some e ->
  acc = Binary64.VInt 0 \/ (exists t, acc = Binary64.VFloat t) ->
  Binary64.score_loop weights r acc = Raise e.
Proof.
  revert acc. induction weights as [|[c w] items IH]; intros acc Hf Hacc;
    [discriminate|].
  rewrite faults_cons in Hf. cbn [Binary64.score_loop].
  destruct (r !! c) as [v|] eqn:Hc; cbn [mbind option_bind] in *.
  - destruct (Binary64.rating_fault v) as [e'|] eqn:Hv.
    + simpl in Hf. injection Hf as ->. rewrite (py_mul_fault v w e Hv).
      reflexivity.
    + destruct (py_mul_number v w Hv) as (x & Hx & ->). cbn [result_bind].
      destruct Hacc as [->|[t ->]].
      * change (Binary64.py_add (Binary64.VInt 0) (x * w)%float)
          with (Ok (A := Binary64.value) (Binary64.VFloat (0 + x * w)%float)).
        cbn [result_bind]. apply IH; eauto.
      * cbn [Binary64.py_add result_bind]. apply IH; eauto.
  - apply IH; eauto.
Qed.

Lemma calculate_weighted_score_binary64 weights (r : gmap string Binary64.value) :
  Binary64.calculate_weighted_score weights r =
    match head (Binary64.faults weights r) with
    | Some e => Raise e
    | None => Binary64.py_round (Binary64.weighted_sum weights r) 2
    end.
Proof.
  unfold Binary64.calculate_weighted_score.
  destruct (Binary64.faults weights r) as [|e l] eqn:Hf.
  - rewrite (score_loop_zero _ _ Hf). reflexivity.
  - rewrite (score_loop_fault weights r (Binary64.VInt 0) e); eauto.
    rewrite Hf. reflexivity.
Qed.

Lemma magnitude_finite_nonzero (m : positive) (e : Z) :
  (if (0 <=? e)%Z then of_Z (Z.pos m * 2 ^ e)
   else Q2Qc (Z.pos m # Z.to_pos (2 ^ (- e)))) <> 0.
Proof.
  destruct (0 <=? e)%Z eqn:He.
  - change 0 with (of_Z 0). intros H%of_Z_inj.
    apply Z.leb_le in He. pose proof (Z.pow_pos_nonneg 2 e). lia.
  - rewrite Qc_eq_iff, this_Q2Qc. unfold Qeq. simpl. lia.
Qed.

Lemma round_float_rounds x :
  Binary64.rounds_to_hundredths x (Binary64.round_float x 2).
Proof.
  unfold Binary64.rounds_to_hundredths, Binary64.round_float,
    Binary64.magnitude, Binary64.sign_bit.
  destruct (Prim2SF x) as [s|s| |s m e].
  - rewrite decide_True by reflexivity. reflexivity.
  - reflexivity.
  - reflexivity.
  - match goal with |- context [decide (?q = 0)] => set (q0 := q) end.
    destruct (decide (q0 = 0)) as [Hz|Hz];
      [destruct (magnitude_finite_nonzero m e Hz)|].
    eexists. split; [apply py_round_rounds|reflexivity].
Qed.

(** C1.  The score is the sum, over the criteria present in both the
    weight table and the ratings, of rating * weight, rounded to two
    decimals: whenever the ratings under recognised criteria are numbers
    the scorer returns the rounding of that sum (taken in binary64, in the
    order of the table).  With weights a: 0.5, b: 0.5 and ratings a: 4,
    b: 2 it returns 3.0; with the table of the module, five ratings of 1
    and one of 2.5 add up to 1.2250000000000001 and score 1.23. *)
Theorem score_is_rounded_weighted_sum :
  (forall weights tool_scores,
     Binary64.faults weights tool_scores = [] ->
     exists score,
       Binary64.calculate_weighted_score weights tool_scores = Ok score /\
       Binary64.rounded (Binary64.weighted_sum weights tool_scores) score) /\
  Binary64.calculate_weighted_score Binary64.half_weights
    Binary64.four_and_two = Ok (Binary64.VFloat 3.0) /\
  Binary64.weighted_sum Binary64.CRITERIA_WEIGHTS Binary64.mostly_ones =
    Binary64.VFloat 1.2250000000000001 /\
  Binary64.calculate_weighted_score Binary64.CRITERIA_WEIGHTS
    Binary64.mostly_ones = Ok (Binary64.VFloat 1.23).
Proof.
  split; [|repeat split; vm_compute; reflexivity].
  intros weights r Hf. rewrite calculate_weighted_score_binary64, Hf.
  cbn [head]. unfold Binary64.weighted_sum.
  destruct (Binary64.products weights r) as [|p ps]; cbn.
  - eexists. split; reflexivity.
  - eexists. split; [reflexivity|].
    eexists. split; [reflexivity|]. apply round_float_rounds.
Qed.

Lemma score_is_rounded_weighted_sum_witness :
  Binary64.faults Binary64.CRITERIA_WEIGHTS Binary64.mostly_ones = [] /\
  exists score,
    Binary64.calculate_weighted_score Binary64.CRITERIA_WEIGHTS
      Binary64.mostly_ones = Ok score /\
    Binary64.rounded
      (Binary64.weighted_sum Binary64.CRITERIA_WEIGHTS Binary64.mostly_ones)
      score.
Proof.
  split; [vm_compute; reflexivity|].
  apply (proj1 score_is_rounded_weighted_sum
           Binary64.CRITERIA_WEIGHTS Binary64.mostly_ones).
  vm_compute. reflexivity.
Defined.

(** C5, as amended.  The scorer fails exactly when some rating under a
    recognised criterion is not a number, with [TypeError], or is an [int]
    too large for a double, with [OverflowError]; the first such
    criterion of the weight table decides which.  In every other case it
    returns the rounded sum. *)
Theorem score_fails_on_unusable_rating weights
    (tool_scores : gmap string Binary64.value) :
  Binary64.calculate_weighted_score weights tool_scores =
    match head (Binary64.faults weights tool_scores) with
    | Some e => Raise e
    | None =>
        Binary64.py_round (Binary64.weighted_sum weights tool_scores) 2
    end /\
  ((exists score,
      Binary64.calculate_weighted_score weights tool_scores = Ok score) <->
   Binary64.faults weights tool_scores = []) /\
  (forall e,
     Binary64.calculate_weighted_score weights tool_scores = Raise e ->
     (e = TypeError \/ e = Binary64.OverflowError) /\
     exists criterion weight rating,
       (criterion, weight) ∈ weights /\
       tool_scores !! criterion = Some rating /\
       Binary64.rating_fault rating = Some e).
Proof.
  pose proof (calculate_weighted_score_binary64 weights tool_scores) as Heq.
  split; [exact Heq|]. rewrite Heq. clear Heq. split.
  - destruct (Binary64.faults weights tool_scores) as [|e l] eqn:Hf; cbn [head].
    + split; [reflexivity|]. intros _. unfold Binary64.weighted_sum.
      destruct (Binary64.products weights tool_scores); cbn; eauto.
    + split; [intros [score H]; discriminate | discriminate].
  - intros e He.
    destruct (Binary64.faults weights tool_scores) as [|e' l] eqn:Hf;
      cbn [head] in He.
    + unfold Binary64.weighted_sum in He.
      destruct (Binary64.products weights tool_scores); discriminate.
    + injection He as ->.
      assert (e ∈ Binary64.faults weights tool_scores) as Hin
        by (rewrite Hf; left).
      apply list_elem_of_omap in Hin as ([c w] & Hcw & Hfault).
      cbn [fst] in Hfault.
      destruct (tool_scores !! c) as [v|] eqn:Hc; [|discriminate].
      cbn in Hfault. split.
      * destruct v as [z|x|s|]; cbn in Hfault;
          try destruct (Z.abs z <? _)%Z; try discriminate;
          injection Hfault as <-; auto.
      * exists c, w, v. auto.
Qed.

Lemma score_fails_on_unusable_rating_witness :
  Binary64.calculate_weighted_score Binary64.CRITERIA_WEIGHTS
    {[ "ease_of_use" := Binary64.VInt (10 ^ 309) ]} =
    Raise Binary64.OverflowError /\
  (Binary64.OverflowError = TypeError \/
   Binary64.OverflowError = Binary64.OverflowError) /\
  exists criterion weight rating,
    (criterion, weight) ∈ Binary64.CRITERIA_WEIGHTS /\
    ({[ "ease_of_use" := Binary64.VInt (10 ^ 309) ]}
       : gmap string Binary64.value) !! criterion = Some rating /\
    Binary64.rating_fault rating = Some Binary64.OverflowError.
Proof.
  split; [vm_compute; reflexivity|].
  apply (proj2 (proj2 (score_fails_on_unusable_rating
                         Binary64.CRITERIA_WEIGHTS
                         {[ "ease_of_use" := Binary64.VInt (10 ^ 309) ]}))
           Binary64.OverflowError).
  vm_compute. reflexivity.
Defined.

(** The claim C5 as stated fails twice: a [str] rating raises the built-in
    [TypeError], not an [InvalidRatingError], and the numeric rating
    10^309 does not score but raises [OverflowError]. *)
Lemma unusable_ratings_raise_builtin_errors :
  Binary64.calculate_weighted_score Binary64.CRITERIA_WEIGHTS
    {[ "ease_of_use" := Binary64.VStr "high" ]} = Raise TypeError /\
  TypeError <> Exception "InvalidRatingError" /\
  Binary64.calculate_weighted_score Binary64.CRITERIA_WEIGHTS
    {[ "ease_of_use" := Binary64.VInt (10 ^ 309) ]} =
    Raise Binary64.OverflowError /\
  Binary64.calculate_weighted_score Binary64.CRITERIA_WEIGHTS
    {[ "ease_of_use" := Binary64.VInt (10 ^ 308) ]} =
    Ok (Binary64.VFloat 2.0000000000000002e+307).
Proof.
  split; [vm_compute; reflexivity|]. split; [discriminate|].
  split; vm_compute; reflexivity.
Qed.




(* ================================================================= *)
(** ** Frames and the run of the ranker *)

Lemma get_cell_set_cell_eq col v row : get_cell col (set_cell col v row) = Some v.
Proof.
  induction row as [|[c x] row IH]; simpl.
  - by rewrite decide_True.
  - destruct (decide (c = col)) as [->|Hne]; simpl.
    + by rewrite decide_True.
    + by rewrite decide_False.
Qed.

Lemma get_cell_set_cell_ne col col' v row :
  col <> col' -> get_cell col' (set_cell col v row) = get_cell col' row.
Proof.
  intros Hne. induction row as [|[c x] row IH]; simpl.
  - by rewrite decide_False.
  - destruct (decide (c = col)) as [->|Hc]; simpl.
    + by rewrite !decide_False.
    + destruct (decide (c = col')); [done | apply IH].
Qed.

Lemma map_result_Ok {A B} (f : A -> result B) (g : A -> B) (l : list A) :
  Forall (fun a => f a = Ok (g a)) l -> map_result f l = Ok (g <$> l).
Proof.
  induction 1 as [|a l Ha _ IH]; [done|].
  rewrite fmap_cons. cbn [map_result result_bind]. by rewrite Ha, IH.
Qed.

Lemma map_result_Raise {A B} (f : A -> result B) (e : exn) (l : list A) :
  Forall (fun a => (exists b, f a = Ok b) \/ f a = Raise e) l ->
  Exists (fun a => f a = Raise e) l ->
  map_result f l = Raise e.
Proof.
  induction 1 as [|a l Ha _ IH]; intros Hex; simpl.
  - by apply Exists_nil in Hex.
  - destruct Ha as [[b Hb]|Hr]; [|by rewrite Hr].
    rewrite Hb. simpl.
    apply Exists_cons in Hex as [Hex|Hex]; [congruence|].
    by rewrite IH.
Qed.

Lemma column_read_back col (series : list value) (d : DataFrame) :
  length series = length d ->
  mapM (get_cell col) (with_column col series d) = Some series.
Proof.
  intros Hlen. apply mapM_Some. unfold with_column.
  revert d Hlen. induction series as [|v series IH]; intros [|row d] Hlen;
    simpl in *; try done; constructor.
  - apply get_cell_set_cell_eq.
  - apply IH. lia.
Qed.

Lemma with_column_length col series (d : DataFrame) :
  length series = length d -> length (with_column col series d) = length d.
Proof. intros H. unfold with_column. rewrite length_zip_with. lia. Qed.

Lemma as_number_VNum (xs : list Qc) : map_result as_number (VNum <$> xs) = Ok xs.
Proof.
  induction xs as [|x xs IH]; [done|].
  rewrite fmap_cons. cbn [map_result as_number result_bind]. by rewrite IH.
Qed.

Lemma as_number_int_value (zs : list Z) :
  map_result as_number (int_value <$> zs) = Ok (of_Z <$> zs).
Proof.
  induction zs as [|z zs IH]; [done|].
  rewrite !fmap_cons. cbn [map_result as_number int_value result_bind].
  by rewrite IH.
Qed.

Lemma scores_of_scorable weights d :
  scorable weights d ->
  map_result (fun row => calculate_weighted_score weights (to_dict row)) d
  = Ok (row_score weights <$> d).
Proof.
  intros H. apply map_result_Ok. eapply Forall_impl; [exact H|].
  intros row Hrow. by apply calculate_weighted_score_numeric.
Qed.

Lemma scores_of_unscorable weights d :
  ~ scorable weights d ->
  map_result (fun row => calculate_weighted_score weights (to_dict row)) d
  = Raise TypeError.
Proof.
  intros H. apply map_result_Raise.
  - apply Forall_forall. intros row _.
    rewrite calculate_weighted_score_cases.
    destruct (decide _); eauto.
  - apply not_Forall_Exists in H; [|intros row; apply _].
    eapply Exists_impl; [exact H|]. intros row Hrow. simpl in Hrow.
    rewrite calculate_weighted_score_cases. by rewrite decide_False.
Qed.

Lemma rank_dense_desc_length vals : length (rank_dense_desc vals) = length vals.
Proof. unfold rank_dense_desc. by rewrite length_fmap. Qed.

Lemma bind_Ok {A B} (m : M A) (k : A -> M B) h a h' :
  m h = (Ok a, h') -> bind m k h = k a h'.
Proof. intros H. unfold bind. by rewrite H. Qed.

Lemma bind_Raise {A B} (m : M A) (k : A -> M B) h e h' :
  m h = (Raise e, h') -> bind m k h = (Raise e, h').
Proof. intros H. unfold bind. by rewrite H. Qed.

Lemma load_last (h : heap) d : load (length h) (h ++ [d]) = (Ok d, h ++ [d]).
Proof. unfold load. by rewrite list_lookup_middle. Qed.

Lemma df_copy_run (h : heap) l d :
  h !! l = Some d -> df_copy l h = (Ok (length h), h ++ [d]).
Proof. intros H. unfold df_copy, bind, load, alloc. by rewrite H. Qed.

Lemma df_apply_run (h : heap) d f :
  df_apply (length h) f (h ++ [d]) = (map_result f d, h ++ [d]).
Proof. unfold df_apply. by rewrite (bind_Ok _ _ _ _ _ (load_last h d)). Qed.

Lemma df_setitem_run (h : heap) d col series :
  df_setitem (length h) col series (h ++ [d])
  = (Ok tt, h ++ [with_column col series d]).
Proof.
  unfold df_setitem. rewrite (bind_Ok _ _ _ _ _ (load_last h d)).
  unfold store. f_equal.
  rewrite insert_app_r_alt by lia. by rewrite Nat.sub_diag.
Qed.

Lemma df_getitem_run (h : heap) d col series :
  mapM (get_cell col) d = Some series ->
  df_getitem (length h) col (h ++ [d]) = (Ok series, h ++ [d]).
Proof.
  intros H. unfold df_getitem. rewrite (bind_Ok _ _ _ _ _ (load_last h d)).
  by rewrite H.
Qed.

Lemma series_rank_run (h : heap) vals :
  series_rank (VNum <$> vals) h = (Ok (rank_dense_desc vals), h).
Proof.
  unfold series_rank, bind, lift, ret. by rewrite as_number_VNum.
Qed.

Lemma df_sort_values_run argsort (h : heap) d col zs :
  mapM (get_cell col) d = Some (int_value <$> zs) ->
  df_sort_values argsort (length h) col (h ++ [d])
  = (Ok (S (length h)), h ++ [d; take_rows (argsort (of_Z <$> zs)) d]).
Proof.
  intros H. unfold df_sort_values.
  rewrite (bind_Ok _ _ _ _ _ (df_getitem_run h d col _ H)).
  unfold lift at 1. unfold bind at 1. rewrite as_number_int_value.
  rewrite (bind_Ok _ _ _ _ _ (load_last h d)).
  unfold alloc. rewrite length_app. simpl. rewrite Nat.add_1_r.
  by rewrite <- app_assoc.
Qed.

Lemma scored_columns_for weights scores (d : DataFrame) :
  with_column "rank" (int_value <$> (rank_in scores <$> (row_score weights <$> d)))
    (with_column "business_score" (VNum <$> (row_score weights <$> d)) d)
  = add_fields weights scores <$> d.
Proof.
  unfold with_column. induction d as [|row d IH]; [done|].
  rewrite !fmap_cons. cbn [zip_with]. by rewrite IH.
Qed.

Lemma scored_columns weights (d : DataFrame) :
  with_column "rank" (int_value <$> rank_dense_desc (row_score weights <$> d))
    (with_column "business_score" (VNum <$> (row_score weights <$> d)) d)
  = scored weights d.
Proof. apply scored_columns_for. Qed.

Lemma evaluate_tools_returns weights argsort (h : heap) (l : loc) (d : DataFrame) :
  h !! l = Some d -> scorable weights d ->
  evaluate_tools weights argsort l h
  = (Ok (S (length h)), h ++ [scored weights d; ranked weights argsort d]).
Proof.
  intros Hl Hs. unfold evaluate_tools.
  rewrite (bind_Ok _ _ _ _ _ (df_copy_run h l d Hl)).
  erewrite bind_Ok; [|by rewrite df_apply_run, (scores_of_scorable _ _ Hs)].
  rewrite (bind_Ok _ _ _ _ _ (df_setitem_run h d _ _)).
  erewrite bind_Ok; [|apply df_getitem_run, column_read_back;
                      by rewrite !length_fmap].
  rewrite (bind_Ok _ _ _ _ _ (series_rank_run _ _)).
  rewrite (bind_Ok _ _ _ _ _ (df_setitem_run h _ _ _)).
  rewrite (df_sort_values_run argsort h _ "rank" (rank_dense_desc (row_score weights <$> d))).
  - unfold ranked. by rewrite scored_columns.
  - apply column_read_back.
    rewrite with_column_length by (by rewrite !length_fmap).
    by rewrite length_fmap, rank_dense_desc_length, length_fmap.
Qed.

Lemma evaluate_tools_raises weights argsort (h : heap) (l : loc) (d : DataFrame) :
  h !! l = Some d -> ~ scorable weights d ->
  evaluate_tools weights argsort l h = (Raise TypeError, h ++ [d]).
Proof.
  intros Hl Hs. unfold evaluate_tools.
  rewrite (bind_Ok _ _ _ _ _ (df_copy_run h l d Hl)).
  erewrite bind_Raise; [reflexivity|].
  by rewrite df_apply_run, (scores_of_unscorable _ _ Hs).
Qed.

(* ================================================================= *)
(** ** Dense ranks *)








(* ----------------------------------------------------------------- *)
(** *** Reordering *)

Lemma omap_lookup_seq {A} (l1 l2 : list A) :
  omap (fun i => (l1 ++ l2) !! i) (seq (length l1) (length l2)) = l2.
Proof.
  revert l1. induction l2 as [|x l2 IH]; intros l1; [done|].
  simpl. rewrite list_lookup_middle by done. f_equal.
  specialize (IH (l1 ++ [x])). rewrite <- app_assoc in IH. simpl in IH.
  rewrite length_app in IH. simpl in IH. by rewrite Nat.add_1_r in IH.
Qed.

Lemma take_rows_seq (d : DataFrame) : take_rows (seq 0 (length d)) d = d.
Proof. apply (omap_lookup_seq [] d). Qed.

Lemma take_rows_Permutation p (d : DataFrame) :
  Permutation p (seq 0 (length d)) -> Permutation (take_rows p d) d.
Proof.
  intros H. unfold take_rows. rewrite H.
  change (Permutation (take_rows (seq 0 (length d)) d) d).
  by rewrite take_rows_seq.
Qed.

Lemma mapM_take {A B} (f : A -> option B) (l : list A) (ks : list B) p :
  mapM f l = Some ks ->
  mapM f (omap (fun i => l !! i) p) = Some (omap (fun i => ks !! i) p).
Proof.
  intros H. apply mapM_Some in H. apply mapM_Some.
  induction p as [|i p IH]; simpl; [constructor|].
  destruct (l !! i) as [x|] eqn:Hx.
  - destruct (Forall2_lookup_l _ _ _ _ _ H Hx) as (k & -> & Hk).
    by constructor.
  - apply lookup_ge_None in Hx. rewrite (Forall2_length _ _ _ H) in Hx.
    apply lookup_ge_None in Hx. by rewrite Hx.
Qed.

(* ----------------------------------------------------------------- *)
(** *** The scored frame *)

Lemma add_fields_score_rank weights scores row :
  has_score_rank (add_fields weights scores row)
    (row_score weights row) (rank_in scores (row_score weights row)).
Proof.
  unfold has_score_rank, add_fields. split.
  - rewrite get_cell_set_cell_ne by done. apply get_cell_set_cell_eq.
  - apply get_cell_set_cell_eq.
Qed.


Lemma rank_column_scored weights d :
  rank_column (scored weights d)
  = Some (of_Z <$> rank_dense_desc (row_score weights <$> d)).
Proof.
  unfold rank_column, scored, rank_dense_desc. apply mapM_Some.
  rewrite <- !list_fmap_compose. apply Forall2_fmap, Forall_Forall2_diag.
  apply Forall_forall. intros row _. simpl.
  destruct (add_fields_score_rank weights (row_score weights <$> d) row) as [_ ->].
  reflexivity.
Qed.



Lemma ranked_Permutation weights argsort d :
  argsort_ok argsort -> Permutation (ranked weights argsort d) (scored weights d).
Proof.
  intros Hok. unfold ranked. apply take_rows_Permutation.
  destruct (Hok (of_Z <$> rank_dense_desc (row_score weights <$> d))) as [Hp _].
  rewrite Hp. rewrite length_fmap, rank_dense_desc_length, length_fmap.
  unfold scored. by rewrite length_fmap.
Qed.

Lemma ranked_rank_column weights argsort d :
  argsort_ok argsort ->
  exists ranks, rank_column (ranked weights argsort d) = Some ranks /\
                Sorted Qcle ranks.
Proof.
  intros Hok.
  destruct (Hok (of_Z <$> rank_dense_desc (row_score weights <$> d))) as [_ Hs].
  eexists. split; [|exact Hs]. unfold ranked, take_rows, rank_column.
  apply mapM_take. apply rank_column_scored.
Qed.

(* ----------------------------------------------------------------- *)
(** *** The two insertion routines meet the contract *)


Section insertion.
Variable before : Qc -> Qc -> bool.
Hypothesis before_true : forall a b, before a b = true -> a <= b.
Hypothesis before_false : forall a b, before a b = false -> b <= a.







End insertion.



(* ================================================================= *)
(** ** The ranker *)

Lemma evaluate_tools_output weights argsort (h : heap) l d :
  h !! l = Some d -> scorable weights d ->
  exists out h',
    evaluate_tools weights argsort l h = (Ok out, h') /\
    (length h <= out)%nat /\
    h' !! out = Some (ranked weights argsort d).
Proof.
  intros Hl Hs. eexists _, _. split; [by apply evaluate_tools_returns|].
  split; [lia|].
  rewrite (lookup_app_r h) by lia.
  by replace (S (length h) - length h)%nat with 1%nat by lia.
Qed.

Lemma evaluate_tools_frame weights argsort (h : heap) l d res h' :
  h !! l = Some d ->
  evaluate_tools weights argsort l h = (res, h') ->
  forall l' x, h !! l' = Some x -> h' !! l' = Some x.
Proof.
  intros Hl Hrun l' x Hx. destruct (decide (scorable weights d)) as [Hs|Hs].
  - rewrite (evaluate_tools_returns _ _ _ _ _ Hl Hs) in Hrun.
    injection Hrun as _ <-. by apply lookup_app_l_Some.
  - rewrite (evaluate_tools_raises _ _ _ _ _ Hl Hs) in Hrun.
    injection Hrun as _ <-. by apply lookup_app_l_Some.
Qed.
















Example graded_tools_ranked :
  tool_names (ranked unit_weight argsort_stable graded_tools)
    = [VStr "A"; VStr "B"; VStr "C"; VStr "D"; VStr "E"] /\
  rank_column (ranked unit_weight argsort_stable graded_tools)
    = Some (of_Z <$> [1; 1; 2; 2; 3]%Z).
Proof. split; by vm_compute. Qed.

(** Whenever every row can be scored, the returned records are the scored
    input records, each exactly once, in ascending order of rank.  Where
    records of equal rank stand among themselves is left to the sorting
    routine, of which only the contract [argsort_ok] is assumed. *)
Lemma ranked_by_ascending_rank weights argsort (h : heap) l d :
  argsort_ok argsort -> h !! l = Some d -> scorable weights d ->
  exists out h' rows ranks,
    evaluate_tools weights argsort l h = (Ok out, h') /\
    h' !! out = Some rows /\
    Permutation rows (scored weights d) /\
    rank_column rows = Some ranks /\
    Sorted Qcle ranks.
Proof.
  intros Hok Hl Hs.
  destruct (evaluate_tools_output weights argsort h l d Hl Hs)
    as (out & h' & Hrun & _ & Hout).
  destruct (ranked_rank_column weights argsort d Hok) as (ranks & Hcol & Hsorted).
  exists out, h', (ranked weights argsort d), ranks.
  split; [done|]. split; [done|]. split; [by apply ranked_Permutation|]. done.
Qed.

(** C6.  On a frame without rows the ranker returns a frame without rows
    and raises nothing. *)
Theorem empty_input_gives_empty_output weights argsort (h : heap) l :
  h !! l = Some [] ->
  exists out h',
    evaluate_tools weights argsort l h = (Ok out, h') /\
    h' !! out = Some [].
Proof.
  intros Hl.
  destruct (evaluate_tools_output weights argsort h l [] Hl)
    as (out & h' & Hrun & _ & Hout); [constructor|].
  exists out, h'. split; [done|]. rewrite Hout. f_equal.
  unfold ranked, take_rows, scored. simpl.
  induction (argsort _) as [|i p IH]; [done|]. simpl. exact IH.
Qed.

Lemma empty_input_gives_empty_output_witness :
  exists out h',
    evaluate_tools CRITERIA_WEIGHTS argsort_ties_reversed 0%nat [[]] = (Ok out, h') /\
    h' !! out = Some [].
Proof.
  apply (empty_input_gives_empty_output CRITERIA_WEIGHTS argsort_ties_reversed
           [[]] 0%nat).
  reflexivity.
Defined.







(** C9.  Two calls of the ranker one after the other on the same input
    frame, the second in the heap the first has left, agree: both raise
    the same exception, or both return, and the two returned frames have
    the same records with the same scores and ranks in the same order; the
    second call leaves the frame returned by the first as it was. *)
Theorem evaluate_twice_same_output weights argsort (h : heap) l d :
  h !! l = Some d ->
  exists res1 h1 res2 h2,
    evaluate_tools weights argsort l h = (res1, h1) /\
    evaluate_tools weights argsort l h1 = (res2, h2) /\
    match res1, res2 with
    | Ok out1, Ok out2 =>
        exists rows,
          h1 !! out1 = Some rows /\ h2 !! out1 = Some rows /\
          h2 !! out2 = Some rows
    | Raise e1, Raise e2 => e1 = e2
    | _, _ => False
    end.
Proof.
  intros Hl. destruct (decide (scorable weights d)) as [Hs|Hs].
  - destruct (evaluate_tools_output weights argsort h l d Hl Hs)
      as (out1 & h1 & Hrun1 & _ & Hout1).
    pose proof (evaluate_tools_frame _ _ _ _ _ _ _ Hl Hrun1 _ _ Hl) as Hl1.
    destruct (evaluate_tools_output weights argsort h1 l d Hl1 Hs)
      as (out2 & h2 & Hrun2 & _ & Hout2).
    exists (Ok out1), h1, (Ok out2), h2. split; [done|]. split; [done|].
    exists (ranked weights argsort d). split; [done|]. split; [|done].
    exact (evaluate_tools_frame _ _ _ _ _ _ _ Hl1 Hrun2 _ _ Hout1).
  - pose proof (evaluate_tools_raises weights argsort h l d Hl Hs) as Hrun1.
    assert ((h ++ [d]) !! l = Some d) as Hl1 by (by apply lookup_app_l_Some).
    pose proof (evaluate_tools_raises weights argsort _ l d Hl1 Hs) as Hrun2.
    by eexists _, _, _, _.
Qed.

Lemma evaluate_twice_same_output_witness :
  exists res1 h1 res2 h2,
    evaluate_tools unit_weight argsort_ties_reversed 0%nat [graded_tools] = (res1, h1) /\
    evaluate_tools unit_weight argsort_ties_reversed 0%nat h1 = (res2, h2) /\
    match res1, res2 with
    | Ok out1, Ok out2 =>
        exists rows,
          h1 !! out1 = Some rows /\ h2 !! out1 = Some rows /\
          h2 !! out2 = Some rows
    | Raise e1, Raise e2 => e1 = e2
    | _, _ => False
    end.
Proof.
  apply (evaluate_twice_same_output unit_weight argsort_ties_reversed
           [graded_tools] 0%nat graded_tools).
  reflexivity.
Defined.

(* ================================================================= *)
(** * Further properties *)

(* ================================================================= *)
(** ** The scorer on whole records *)








(* ================================================================= *)
(** ** The ranker: order of the result *)



(* ================================================================= *)
(** ** Dominated tools *)




(* ================================================================= *)
(** ** Evaluating an evaluated frame *)






Section derived_columns_unrecognised.
Variable weights : weight_table.
Hypothesis score_unrecognised : "business_score" ∉ weights.*1.
Hypothesis rank_unrecognised : "rank" ∉ weights.*1.



End derived_columns_unrecognised.






Section reevaluation.
Variable weights : weight_table.
Hypothesis score_unrecognised : "business_score" ∉ weights.*1.
Hypothesis rank_unrecognised : "rank" ∉ weights.*1.



End reevaluation.



(* ================================================================= *)
(** ** The rank as a count *)






(* ================================================================= *)
(** ** The rows of the chart *)












Example chart_of_graded_tools :
  let h1 := (evaluate_tools unit_weight argsort_stable 0%nat [graded_tools]).2 in
  tool_names <$> ((top_tools argsort_stable 2%nat 3 h1).2 !! 4%nat)
  = Some [VStr "C"; VStr "A"; VStr "B"].
Proof. by vm_compute. Qed.

